(** * easypay-gateway: the two Express handlers of [index.js]

    [index.js] starts an Express application with two routes of its own:
    [GET /stripe-public-key], which answers with the publishable key found in
    [process.env], and [POST /create-payment-intent], an [async] handler that
    awaits one call of [stripe.paymentIntents.create] and answers with the
    client secret of the intent, or with status 500 and the message of
    whatever the call threw.

    The embedding has three layers:
    - [JS]: the JavaScript values the handlers touch, property reads,
      truthiness and the value [JSON.stringify] produces;
    - [Express]: the response object [res] and the console, as a state and
      exception monad in which the handler bodies are written;
    - [Gateway]: [index.js] itself, the start of the process and the event
      loop that interleaves arriving requests with settling provider calls. *)

From Stdlib Require Import ZArith String List DecimalString.
From stdpp Require Import gmap strings list.

Set Warnings "-register-all".

(** ** JavaScript values *)

Module JS.

(** A JavaScript number.  Only integral finite numbers occur in the program
    (1000, 500, 3000); the two other constructors are the numbers that
    [JSON.stringify] turns into [null]. *)
Inductive number : Type :=
  | Finite (z : Z)
  | NaN
  | Infinity (negative : bool).

(** Values.  [JObj] is a plain data object: its enumerable own properties in
    enumeration order. *)
Inductive value : Type :=
  | JUndefined
  | JNull
  | JBool (b : bool)
  | JNum (n : number)
  | JBigInt (z : Z)
  | JStr (s : string)
  | JArr (items : list value)
  | JObj (props : list (string * value)).

(** The outcome of evaluating something that may throw; for an awaited
    promise, [Normal] is fulfilment and [Throw] is rejection. *)
Inductive completion (A : Type) : Type :=
  | Normal (a : A)
  | Throw (e : value).
Arguments Normal {A} a.
Arguments Throw {A} e.

(** A JSON document, the result of [JSON.stringify] read as a value.  As in
    [number], the numbers are the integral ones. *)
Inductive json : Type :=
  | JsNull
  | JsBool (b : bool)
  | JsNum (z : Z)
  | JsStr (s : string)
  | JsArr (items : list json)
  | JsObj (members : list (string * json)).

Definition TypeError (message : string) : value :=
  JObj [("name", JStr "TypeError"); ("message", JStr message)].

(** First property of that name in a property list. *)
Fixpoint own_prop (props : list (string * value)) (name : string) : option value :=
  match props with
  | [] => None
  | (k, v) :: rest => if String.eqb k name then Some v else own_prop rest name
  end.

(** [v.name].  Reading a property of [undefined] or [null] throws; an object
    yields its own property, and otherwise, like a primitive or an array, what
    its prototype has under that name, which is [undefined] for the two names
    the program reads, [client_secret] and [message]. *)
Definition get (v : value) (name : string) : completion value :=
  match v with
  | JUndefined =>
      Throw (TypeError ("Cannot read properties of undefined (reading '" ++ name ++ "')"))
  | JNull =>
      Throw (TypeError ("Cannot read properties of null (reading '" ++ name ++ "')"))
  | JObj props => Normal (default JUndefined (own_prop props name))
  | _ => Normal JUndefined
  end.

(** ToBoolean. *)
Definition truthy (v : value) : bool :=
  match v with
  | JUndefined | JNull => false
  | JBool b => b
  | JNum (Finite z) => negb (Z.eqb z 0)
  | JNum NaN => false
  | JNum (Infinity _) => true
  | JBigInt z => negb (Z.eqb z 0)
  | JStr s => negb (String.eqb s "")
  | JArr _ | JObj _ => true
  end.

(** [a || b]. *)
Definition or (a b : value) : value := if truthy a then a else b.

(** [JSON.stringify v]: [None] is the result [undefined].  A property whose
    value serializes to [undefined] is left out of its object, an array
    element that does becomes [null], a number that is not finite becomes
    [null], and a BigInt throws. *)
Fixpoint stringify (v : value) : completion (option json) :=
  match v with
  | JUndefined => Normal None
  | JNull => Normal (Some JsNull)
  | JBool b => Normal (Some (JsBool b))
  | JNum (Finite z) => Normal (Some (JsNum z))
  | JNum _ => Normal (Some JsNull)
  | JBigInt _ => Throw (TypeError "Do not know how to serialize a BigInt")
  | JStr s => Normal (Some (JsStr s))
  | JArr items =>
      let fix elements (l : list value) : completion (list json) :=
        match l with
        | [] => Normal []
        | x :: rest =>
            match stringify x with
            | Throw e => Throw e
            | Normal o =>
                match elements rest with
                | Throw e => Throw e
                | Normal js => Normal (default JsNull o :: js)
                end
            end
        end in
      match elements items with
      | Throw e => Throw e
      | Normal js => Normal (Some (JsArr js))
      end
  | JObj props =>
      let fix members (l : list (string * value)) : completion (list (string * json)) :=
        match l with
        | [] => Normal []
        | (k, x) :: rest =>
            match stringify x with
            | Throw e => Throw e
            | Normal o =>
                match members rest with
                | Throw e => Throw e
                | Normal js =>
                    Normal (match o with Some j => (k, j) :: js | None => js end)
                end
            end
        end in
      match members props with
      | Throw e => Throw e
      | Normal js => Normal (Some (JsObj js))
      end
  end.

(** [JSON.parse] of a document, as the value a client gets back. *)
Fixpoint parse (doc : json) : value :=
  match doc with
  | JsNull => JNull
  | JsBool b => JBool b
  | JsNum z => JNum (Finite z)
  | JsStr s => JStr s
  | JsArr items => JArr (map parse items)
  | JsObj members => JObj (map (fun m => (m.1, parse m.2)) members)
  end.

End JS.
Export JS.

(** ** The response object and the console *)

Module Express.

(** What goes on the wire: the status line and the JSON payload ([None] is an
    empty payload, sent when [JSON.stringify] yields [undefined]). *)
Record response : Type := Response { status : Z; body : option json }.

(** What a handler can change while it runs: the status code held by [res]
    (200 until [res.status] is called), the response once it is sent, and the
    lines written with [console.error]. *)
Record world : Type := World {
  statusCode : Z;
  sent : option response;
  console : list value
}.

(** A handler body: it runs in a [world], may throw, and leaves a [world]
    behind also when it throws. *)
Definition handler (A : Type) : Type := world -> completion A * world.

Definition ret {A} (a : A) : handler A := fun w => (Normal a, w).

Definition bind {A B} (m : handler A) (k : A -> handler B) : handler B :=
  fun w =>
    match m w with
    | (Normal a, w') => k a w'
    | (Throw e, w') => (Throw e, w')
    end.

(** [try { body } catch (error) { recover }]. *)
Definition try_catch {A} (body : handler A) (recover : value -> handler A) : handler A :=
  fun w =>
    match body w with
    | (Normal a, w') => (Normal a, w')
    | (Throw e, w') => recover e w'
    end.

(** An expression that may throw, evaluated inside a handler. *)
Definition eval {A} (c : completion A) : handler A := fun w => (c, w).

Notation "'let*' x ':=' m 'in' k" := (bind m (fun x => k))
  (at level 10, x name, m at level 100, k at level 200).

(** [console.error(v)]. *)
Definition console_error (v : value) : handler unit :=
  fun w => (Normal tt, World (statusCode w) (sent w) (console w ++ [v])).

(** [res.status(code)]. *)
Definition res_status (code : Z) : handler unit :=
  fun w => (Normal tt, World code (sent w) (console w)).

Definition ERR_HTTP_HEADERS_SENT : value :=
  JObj [("code", JStr "ERR_HTTP_HEADERS_SENT");
        ("message", JStr "Cannot set headers after they are sent to the client")].

(** [res.json(v)]: the payload is serialized first, so a value that cannot be
    serialized throws before anything is sent; the response goes out with the
    status code [res] holds at that moment; a second response on the same
    [res] throws. *)
Definition res_json (v : value) : handler unit :=
  fun w =>
    match stringify v with
    | Throw e => (Throw e, w)
    | Normal payload =>
        match sent w with
        | Some _ => (Throw ERR_HTTP_HEADERS_SENT, w)
        | None =>
            (Normal tt,
             World (statusCode w) (Some (Response (statusCode w) payload)) (console w))
        end
    end.

(** [res.json(v)] with the freshness test that [res.send] makes before it
    writes: [fresh status payload] tells whether Express finds the request
    fresh for a response of that status and payload, and a fresh request is
    answered with status 304 and an empty payload.  [res_json] is this
    function for a request that is never fresh, as every request is whose
    method is neither GET nor HEAD. *)
Definition res_json_conditional (fresh : Z -> option json -> bool) (v : value) : handler unit :=
  fun w =>
    match stringify v with
    | Throw e => (Throw e, w)
    | Normal payload =>
        match sent w with
        | Some _ => (Throw ERR_HTTP_HEADERS_SENT, w)
        | None =>
            if fresh (statusCode w) payload
            then (Normal tt, World 304 (Some (Response 304 None)) (console w))
            else (Normal tt,
                  World (statusCode w) (Some (Response (statusCode w) payload)) (console w))
        end
    end.

(** [res.send(v)] for an object [v], the only kind of argument [index.js]
    passes: Express hands it to [res.json].  It is used on the intent route,
    whose requests are POST requests and so never fresh. *)
Definition res_send (v : value) : handler unit := res_json v.

End Express.
Export Express.

(** ** index.js *)

Module Gateway.

(** A request as the router sees it, after [express.json()] has parsed the
    body and [express.static] has found no file for the path.  Of the headers
    only the conditional ones are kept, as what they come to: [validates p]
    tells whether the validators of the request (If-None-Match, with
    Cache-Control) accept the entity tag that Express computes from the
    payload [p].  A request without such headers accepts none, and
    [If-None-Match: *] accepts all. *)
Record request : Type := Request {
  method : string;
  path : string;
  validates : option json -> bool;
  req_body : value
}.

(** The validators of a request that has no conditional header. *)
Definition unconditional : option json -> bool := fun _ => false.

(** [req.fresh], for a response of that status and payload: only a GET or a
    HEAD is ever fresh, and only for a status 2xx or 304. *)
Definition fresh (req : request) (status : Z) (payload : option json) : bool :=
  (String.eqb (method req) "GET" || String.eqb (method req) "HEAD")
  && ((200 <=? status)%Z && (status <? 300)%Z || (status =? 304)%Z)
  && validates req payload.

(** [process.env.NAME]: a string, or [undefined] when the variable is unset. *)
Definition process_env (env : gmap string string) (name : string) : value :=
  match env !! name with
  | Some s => JStr s
  | None => JUndefined
  end.

(** [app.get('/stripe-public-key', (req, res) => ...)] *)
Definition stripe_public_key (env : gmap string string) (req : request) : handler unit :=
  res_json_conditional (fresh req)
    (JObj [("publicKey", process_env env "STRIPE_PUBLISHABLE_KEY")]).

(** The argument list of [stripe.paymentIntents.create(...)]: one object, and
    no second (options) argument. *)
Definition paymentIntents_create_arguments (req : request) : list value :=
  [JObj [("amount", JNum (Finite 1000));
         ("currency", JStr "usd");
         ("payment_method_types", JArr [JStr "card"])]].

(** [app.post('/create-payment-intent', async (req, res) => ...)] from the
    point where the awaited call has settled: [settled] is the fulfilment
    value of the promise or what it was rejected with (or what the call threw
    at once).  In [res.status(500).send({ error: error.message })] the status
    is set before the argument is evaluated. *)
Definition create_payment_intent (req : request) (settled : completion value) : handler unit :=
  try_catch
    (let* paymentIntent := eval settled in
     let* client_secret := eval (get paymentIntent "client_secret") in
     res_send (JObj [("clientSecret", client_secret)]))
    (fun error =>
       let* _ := console_error error in
       let* _ := res_status 500 in
       let* message := eval (get error "message") in
       res_send (JObj [("error", message)])).

(** The routes [index.js] registers, matched on the exact method and path. *)
Inductive route : Type :=
  | GET_stripe_public_key
  | POST_create_payment_intent
  | no_route.

Definition router (req : request) : route :=
  if String.eqb (method req) "GET" && String.eqb (path req) "/stripe-public-key"
  then GET_stripe_public_key
  else if String.eqb (method req) "POST" && String.eqb (path req) "/create-payment-intent"
  then POST_create_payment_intent
  else no_route.

(** The running process.  [env], [stripe] and [port] are what the first six
    lines of [index.js] set up: [process.env], the key the Stripe client was
    built with, and the value handed to [app.listen].  [awaiting] holds the
    handlers suspended at their [await], by request; the last three fields
    record what the process has done to the outside: the calls made to the
    provider (with the request that made each), the lines on the error
    stream, and the responses sent (with the request each answers). *)
Record server : Type := Server {
  env : gmap string string;
  stripe : value;
  port : value;
  awaiting : list (nat * request);
  remote_calls : list (nat * list value);
  stderr : list value;
  responses : list (nat * response)
}.

(** The top level of [index.js], given [process.env] as [dotenv] leaves it. *)
Definition start (environment : gmap string string) : server :=
  Server environment
         (process_env environment "STRIPE_SECRET_KEY")
         (or (process_env environment "PORT") (JNum (Finite 3000)))
         [] [] [] [].

(** The world a handler starts in: a fresh [res], the shared console. *)
Definition enter (s : server) : world := World 200 None (stderr s).

(** The process after a handler invocation for request [id] has left [w]. *)
Definition leave (s : server) (id : nat) (w : world) : server :=
  Server (env s) (stripe s) (port s) (awaiting s) (remote_calls s)
         (console w)
         (responses s ++ match sent w with Some r => [(id, r)] | None => [] end).

(** The first suspended handler of request [id], and the others. *)
Fixpoint resume (id : nat) (l : list (nat * request)) : option (request * list (nat * request)) :=
  match l with
  | [] => None
  | (i, req) :: rest =>
      if Nat.eqb i id then Some (req, rest)
      else match resume id rest with
           | Some (r, others) => Some (r, (i, req) :: others)
           | None => None
           end
  end.

(** What the event loop delivers: a request, or the settling of the provider
    call that the handler of request [id] awaits. *)
Inductive event : Type :=
  | Arrive (id : nat) (req : request)
  | Settle (id : nat) (outcome : completion value).

(** One turn of the event loop.  A request on the key route is answered in
    the same turn.  A request on the intent route runs its handler up to the
    [await]: the call is made and the handler is suspended.  A settling call
    runs the rest of the handler that awaits it. *)
Definition step (s : server) (e : event) : server :=
  match e with
  | Arrive id req =>
      match router req with
      | GET_stripe_public_key =>
          leave s id (snd (stripe_public_key (env s) req (enter s)))
      | POST_create_payment_intent =>
          Server (env s) (stripe s) (port s)
                 (awaiting s ++ [(id, req)])
                 (remote_calls s ++ [(id, paymentIntents_create_arguments req)])
                 (stderr s) (responses s)
      | no_route => s
      end
  | Settle id outcome =>
      match resume id (awaiting s) with
      | None => s
      | Some (req, others) =>
          leave (Server (env s) (stripe s) (port s) others
                        (remote_calls s) (stderr s) (responses s))
                id (snd (create_payment_intent req outcome (enter s)))
      end
  end.

Fixpoint run (s : server) (events : list event) : server :=
  match events with
  | [] => s
  | e :: rest => run (step s e) rest
  end.

(** The responses sent during one turn. *)
Definition reply (s : server) (e : event) : list (nat * response) :=
  drop (length (responses s)) (responses (step s e)).

(** The configuration: what the top level of [index.js] read. *)
Definition configuration (s : server) : gmap string string * value * value :=
  (env s, stripe s, port s).

(** How many provider calls a log holds for request [id], and how many
    requests [id] on the intent route a trace delivers. *)
Definition calls_for (id : nat) (log : list (nat * list value)) : nat :=
  length (List.filter (fun c => Nat.eqb c.1 id) log).

Definition is_intent_request (id : nat) (e : event) : bool :=
  match e with
  | Arrive i req =>
      Nat.eqb i id &&
      match router req with POST_create_payment_intent => true | _ => false end
  | Settle _ _ => false
  end.

Definition intent_requests (id : nat) (events : list event) : nat :=
  length (List.filter (is_intent_request id) events).

(** One request handled from arrival to the settling of its call, with
    nothing in between. *)
Definition serve (s : server) (id : nat) (req : request) (outcome : completion value) : server :=
  run s [Arrive id req; Settle id outcome].

(** Whether [v] is an object with a property [name] of its own. *)
Definition has_property (v : value) (name : string) : bool :=
  match v with
  | JObj props => bool_decide (is_Some (own_prop props name))
  | _ => false
  end.

(** What the catch block of the intent handler leaves when it is entered with
    [error] in world [w] before anything was sent: the error is on the
    console and the status is 500 in every case; a response goes out unless
    reading [error.message] or serializing it throws. *)
Definition recovered (w : world) (error : value) : completion unit * world :=
  match get error "message" with
  | Throw e => (Throw e, World 500 None (console w ++ [error]))
  | Normal message =>
      match stringify message with
      | Throw e => (Throw e, World 500 None (console w ++ [error]))
      | Normal j =>
          (Normal tt,
           World 500
                 (Some (Response 500 (Some (JsObj match j with
                                                  | Some d => [("error", d)]
                                                  | None => []
                                                  end))))
                 (console w ++ [error]))
      end
  end.

End Gateway.
Export Gateway.


(** ** Serialization, level by level *)

Module Serialization.

(** The serialization of the elements of an array and of the properties of
    an object, as [stringify] does it. *)
Fixpoint stringify_elements (l : list value) : completion (list json) :=
  match l with
  | [] => Normal []
  | x :: rest =>
      match stringify x with
      | Throw e => Throw e
      | Normal o =>
          match stringify_elements rest with
          | Throw e => Throw e
          | Normal js => Normal (default JsNull o :: js)
          end
      end
  end.

Fixpoint stringify_members (l : list (string * value)) : completion (list (string * json)) :=
  match l with
  | [] => Normal []
  | (k, x) :: rest =>
      match stringify x with
      | Throw e => Throw e
      | Normal o =>
          match stringify_members rest with
          | Throw e => Throw e
          | Normal js => Normal (match o with Some j => (k, j) :: js | None => js end)
          end
      end
  end.

(** Whether the keys of an object are all different. *)
Fixpoint distinct (keys : list string) : bool :=
  match keys with
  | [] => true
  | k :: rest => negb (existsb (String.eqb k) rest) && distinct rest
  end.

(** The documents that stand for the same data in JavaScript as in the model:
    every number is an integer that JavaScript holds exactly, and no object
    has a key twice. *)
Fixpoint plain_data (j : json) : bool :=
  match j with
  | JsNum z => (Z.abs z <=? 2 ^ 53)%Z
  | JsArr items => forallb plain_data items
  | JsObj members =>
      distinct (map fst members) && forallb (fun m => plain_data (snd m)) members
  | _ => true
  end.

End Serialization.
Export Serialization.

(** ** The line written at start *)

Module Startup.

(** ToString, for the values whose text the model can give: every value
    but an array or an object, and but a number that is not a safe integer,
    which JavaScript does not print digit for digit. *)
Definition to_string (v : value) : option string :=
  match v with
  | JUndefined => Some "undefined"
  | JNull => Some "null"
  | JBool true => Some "true"
  | JBool false => Some "false"
  | JNum (Finite z) =>
      if (Z.abs z <=? 2 ^ 53)%Z then Some (NilZero.string_of_int (Z.to_int z)) else None
  | JNum NaN => Some "NaN"
  | JNum (Infinity false) => Some "Infinity"
  | JNum (Infinity true) => Some "-Infinity"
  | JBigInt z => Some (NilZero.string_of_int (Z.to_int z))
  | JStr s => Some s
  | JArr _ | JObj _ => None
  end.

(** [`Server running on port ${port}`], the line the callback of
    [app.listen] writes with [console.log] once the server listens. *)
Definition listening_line (s : server) : option string :=
  match to_string (port s) with
  | Some p => Some ("Server running on port " ++ p)%string
  | None => None
  end.

End Startup.
Export Startup.

(** ** The page that pays *)

Module Frontend.

(** What [await fetch(...)] comes to: a response, whatever its status; a
    rejection, when the network fails; or nothing, as long as the server has
    not answered. *)
Inductive fetched : Type :=
  | Answered (r : response)
  | Unreachable (e : value)
  | Unanswered.

(** How a click ends: the handler ran to its end, its promise was rejected,
    or it is still suspended at an [await]. *)
Inductive click_end : Type :=
  | Done
  | Rejected (e : value)
  | Waiting.

(** What a click did: the argument lists of its calls of
    [stripe.confirmCardPayment], and the texts it showed with [alert] ([None]
    is a text that [to_string] does not give). *)
Record page : Type := Page {
  confirmations : list (list value);
  alerts : list (option string)
}.

Definition SyntaxError (message : string) : value :=
  JObj [("name", JStr "SyntaxError"); ("message", JStr message)].

(** [response.json()]: the body parsed; an empty body is no JSON text. *)
Definition response_json (r : response) : completion value :=
  match body r with
  | Some doc => Normal (parse doc)
  | None => Throw (SyntaxError "Unexpected end of JSON input")
  end.

(** The second argument of [stripe.confirmCardPayment]. *)
Definition payment_method : value :=
  JObj [("payment_method",
         JObj [("card",
                JObj [("number", JStr "4242424242424242");
                      ("exp_month", JStr "12");
                      ("exp_year", JStr "23");
                      ("cvc", JStr "123")])])].

(** The request the page sends with [fetch]: no body is given, so the server
    sees whatever [express.json()] makes of none. *)
Definition fetch_request (no_body : value) : request :=
  Request "POST" "/create-payment-intent" unconditional no_body.

(** The click listener of the pay button, given what the fetch comes to and
    how Stripe.js settles the confirmation.  It has no [try]: whatever throws
    rejects the promise of the listener. *)
Definition payButton_click
    (answer : fetched) (confirmCardPayment : list value -> completion value)
    : page * click_end :=
  match answer with
  | Unanswered => (Page [] [], Waiting)
  | Unreachable e => (Page [] [], Rejected e)
  | Answered response =>
      match response_json response with
      | Throw e => (Page [] [], Rejected e)
      | Normal paymentIntentData =>
          match get paymentIntentData "clientSecret" with
          | Throw e => (Page [] [], Rejected e)
          | Normal clientSecret =>
              match confirmCardPayment [clientSecret; payment_method] with
              | Throw e => (Page [[clientSecret; payment_method]] [], Rejected e)
              | Normal result =>
                  match get result "error" with
                  | Throw e => (Page [[clientSecret; payment_method]] [], Rejected e)
                  | Normal error =>
                      if truthy error then
                        match get error "message" with
                        | Throw e => (Page [[clientSecret; payment_method]] [], Rejected e)
                        | Normal message =>
                            (Page [[clientSecret; payment_method]]
                                  [match to_string message with
                                   | Some m => Some ("Payment failed: " ++ m)%string
                                   | None => None
                                   end],
                             Done)
                        end
                      else
                        (Page [[clientSecret; payment_method]]
                              [Some "Payment succeeded!"],
                         Done)
                  end
              end
          end
      end
  end.

(** What the fetch of request [id] comes to, when the process went from [s]
    to [s'] meanwhile: the response sent to [id] in between, if any. *)
Definition answer_to (id : nat) (s s' : server) : fetched :=
  match List.find (fun a => Nat.eqb a.1 id)
                  (drop (length (responses s)) (responses s')) with
  | Some a => Answered a.2
  | None => Unanswered
  end.

(** A click on the page, served by the process in state [s]: the request is
    handled, the provider call settles with [outcome], and the page goes on
    with the answer. *)
Definition checkout
    (s : server) (id : nat) (no_body : value) (outcome : completion value)
    (confirmCardPayment : list value -> completion value) : page * click_end :=
  payButton_click
    (answer_to id s (serve s id (fetch_request no_body) outcome))
    confirmCardPayment.

End Frontend.
Export Frontend.

(** * Properties *)

(** ** Serialization of the one-field objects the handlers send *)

Lemma stringify_one_field (k : string) (v : value) :
  stringify (JObj [(k, v)]) =
  match stringify v with
  | Throw e => Throw e
  | Normal (Some j) => Normal (Some (JsObj [(k, j)]))
  | Normal None => Normal (Some (JsObj []))
  end.
Proof. simpl. destruct (stringify v) as [[j|]|e]; reflexivity. Qed.

#[local] Arguments stringify : simpl never.

(** Case analysis on every property read and serialization a goal scrutinizes. *)
Ltac handler_cases :=
  repeat (first
    [ rewrite stringify_one_field
    | match goal with
      | |- context [match get ?v ?n with _ => _ end] =>
          destruct (get v n) as [?|?]
      | |- context [match stringify ?v with _ => _ end] =>
          destruct (stringify v) as [[?|]|?]
      end ]; simpl).

(** ** The intent handler, case by case *)

Section IntentHandler.

Variable req : request.
Variable w : world.
Hypothesis fresh_status : statusCode w = 200%Z.
Hypothesis nothing_sent : sent w = None.

(** The call is fulfilled with a value whose [client_secret] serializes. *)
Lemma intent_fulfilled (paymentIntent secret : value) (j : option json) :
  get paymentIntent "client_secret" = Normal secret ->
  stringify secret = Normal j ->
  create_payment_intent req (Normal paymentIntent) w =
  (Normal tt,
   World 200
         (Some (Response 200 (Some (JsObj match j with
                                          | Some d => [("clientSecret", d)]
                                          | None => []
                                          end))))
         (console w)).
Proof.
  intros Hget Hser.
  unfold create_payment_intent, try_catch, bind, eval, res_send, res_json.
  rewrite Hget, stringify_one_field, Hser, nothing_sent, fresh_status.
  destruct j; reflexivity.
Qed.

Lemma intent_rejected (error : value) :
  create_payment_intent req (Throw error) w = recovered w error.
Proof.
  unfold create_payment_intent, try_catch, bind, eval, res_send, res_json,
    console_error, res_status, recovered.
  cbn [statusCode sent console]. rewrite nothing_sent.
  destruct (get error "message") as [message|e]; [|reflexivity].
  rewrite stringify_one_field.
  destruct (stringify message) as [[d|]|e]; reflexivity.
Qed.

(** Whatever the call settles with, the handler either answers normally from
    the try block, or it goes through the catch block with some error. *)
Lemma intent_settled (settled : completion value) :
  (exists d, create_payment_intent req settled w =
             (Normal tt, World 200 (Some (Response 200 (Some (JsObj d)))) (console w)))
  \/ (exists error, create_payment_intent req settled w = recovered w error).
Proof.
  destruct settled as [paymentIntent|error].
  - destruct (get paymentIntent "client_secret") as [secret|e] eqn:Hget.
    + destruct (stringify secret) as [j|e] eqn:Hser.
      * left. eexists. eapply intent_fulfilled; eassumption.
      * right. exists e.
        rewrite <- intent_rejected.
        unfold create_payment_intent, try_catch, bind, eval, res_send, res_json.
        rewrite Hget, stringify_one_field, Hser. reflexivity.
    + right. exists e.
      rewrite <- intent_rejected.
      unfold create_payment_intent, try_catch, bind, eval.
      rewrite Hget. reflexivity.
  - right. exists error. apply intent_rejected.
Qed.

End IntentHandler.

(** The response of the intent handler depends neither on the request nor on
    what is already on the console. *)
Lemma intent_answer_independent
    (req req' : request) (outcome : completion value) (c c' : list value) :
  sent (snd (create_payment_intent req outcome (World 200 None c))) =
  sent (snd (create_payment_intent req' outcome (World 200 None c'))).
Proof.
  unfold create_payment_intent, try_catch, bind, eval, res_send, res_json,
    console_error, res_status.
  destruct outcome as [v|v]; simpl; handler_cases; reflexivity.
Qed.

(** ** The event loop *)

(** A property kept by every turn holds along every trace. *)
Lemma run_invariant (P : server -> Prop) :
  (forall s e, P s -> P (step s e)) ->
  forall events s, P s -> P (run s events).
Proof.
  intros Hstep events. induction events as [|e rest IH]; intros s Hs; simpl.
  - exact Hs.
  - apply IH, Hstep, Hs.
Qed.

Lemma step_configuration (s : server) (e : event) :
  configuration (step s e) = configuration s.
Proof.
  destruct e as [id req|id outcome]; simpl.
  - destruct (router req); reflexivity.
  - destruct (resume id (awaiting s)) as [[req others]|]; reflexivity.
Qed.

Lemma run_configuration (s : server) (events : list event) :
  configuration (run s events) = configuration s.
Proof.
  apply (run_invariant (fun s' => configuration s' = configuration s)).
  - intros s' e H. rewrite step_configuration. exact H.
  - reflexivity.
Qed.

Lemma run_env (environment : gmap string string) (events : list event) :
  env (run (start environment) events) = environment.
Proof.
  pose proof (run_configuration (start environment) events) as H.
  unfold configuration in H. injection H as H _ _. exact H.
Qed.

(** A turn only ever adds to the responses. *)
Lemma step_responses (s : server) (e : event) :
  responses (step s e) = responses s ++ reply s e.
Proof.
  unfold reply.
  destruct e as [id req|id outcome]; simpl.
  - destruct (router req); simpl;
      rewrite ?drop_app_length, ?drop_all, ?app_nil_r; reflexivity.
  - destruct (resume id (awaiting s)) as [[req others]|]; simpl;
      rewrite ?drop_app_length, ?drop_all, ?app_nil_r; reflexivity.
Qed.

Lemma resume_newest (l : list (nat * request)) (id : nat) (req : request) :
  exists r others, resume id (l ++ [(id, req)]) = Some (r, others).
Proof.
  induction l as [|[i q] l IH]; simpl.
  - rewrite Nat.eqb_refl. eauto.
  - destruct (Nat.eqb i id); [eauto|].
    destruct IH as (r & others & ->). eauto.
Qed.

Lemma resume_Forall (P : nat * request -> Prop) (id : nat) :
  forall l r others,
    resume id l = Some (r, others) -> Forall P l -> P (id, r) /\ Forall P others.
Proof.
  induction l as [|[i q] l IH]; intros r others Hres Hall; simpl in Hres.
  - discriminate.
  - apply Forall_cons in Hall as [Hq Hl].
    destruct (Nat.eqb i id) eqn:Hi.
    + apply Nat.eqb_eq in Hi. subst i. injection Hres as <- <-. split; assumption.
    + destruct (resume id l) as [[r' others']|] eqn:Hrec; [|discriminate].
      injection Hres as <- <-.
      destruct (IH r' others' eq_refl Hl) as [Hr Ho].
      split; [exact Hr|]. apply Forall_cons; split; assumption.
Qed.

(** Only requests on the intent route are ever suspended. *)
Lemma awaiting_intent_route (environment : gmap string string) (events : list event) :
  Forall (fun a => router a.2 = POST_create_payment_intent)
         (awaiting (run (start environment) events)).
Proof.
  apply (run_invariant
           (fun s => Forall (fun a => router a.2 = POST_create_payment_intent) (awaiting s))).
  - intros s [id req|id outcome] H; simpl.
    + destruct (router req) eqn:Hr; simpl; try exact H.
      apply Forall_app; split; [exact H|].
      apply Forall_cons; split; [exact Hr|apply Forall_nil_2].
    + destruct (resume id (awaiting s)) as [[req others]|] eqn:Hres; simpl; [|exact H].
      exact (proj2 (resume_Forall _ id _ _ _ Hres H)).
  - apply Forall_nil_2.
Qed.

(** A request on the intent route, handled to the end: one call is logged and
    the rest of some suspended handler of that request runs in the world the
    request arrived in. *)
Lemma serve_intent (s : server) (id : nat) (req : request) (outcome : completion value) :
  router req = POST_create_payment_intent ->
  exists r others,
    serve s id req outcome =
    leave (Server (env s) (stripe s) (port s) others
                  (remote_calls s ++ [(id, paymentIntents_create_arguments req)])
                  (stderr s) (responses s))
          id (snd (create_payment_intent r outcome (enter s))).
Proof.
  intros Hr. unfold serve. simpl. rewrite Hr. simpl.
  destruct (resume_newest (awaiting s) id req) as (r & others & ->).
  exists r, others. reflexivity.
Qed.

(** The whole process after a request on the intent route whose call is
    fulfilled with an intent that carries a string secret. *)
Lemma serve_intent_fulfilled
    (s : server) (id : nat) (req : request) (paymentIntent : value) (secret : string) :
  router req = POST_create_payment_intent ->
  get paymentIntent "client_secret" = Normal (JStr secret) ->
  exists others,
    serve s id req (Normal paymentIntent) =
    Server (env s) (stripe s) (port s) others
           (remote_calls s ++ [(id, paymentIntents_create_arguments req)])
           (stderr s)
           (responses s ++
              [(id, Response 200 (Some (JsObj [("clientSecret", JsStr secret)])))]).
Proof.
  intros Hroute Hget.
  destruct (serve_intent s id req (Normal paymentIntent) Hroute) as (r & others & ->).
  rewrite (intent_fulfilled r (enter s) eq_refl eq_refl
             paymentIntent (JStr secret) (Some (JsStr secret)) Hget eq_refl).
  exists others. reflexivity.
Qed.

(** A turn adds one call to the log for an arriving intent request and none
    otherwise. *)
Lemma step_calls_for (id : nat) (s : server) (e : event) :
  calls_for id (remote_calls (step s e)) =
  calls_for id (remote_calls s) + (if is_intent_request id e then 1 else 0).
Proof.
  destruct e as [i req|i outcome]; simpl.
  - destruct (router req); simpl; rewrite ?andb_false_r; try lia.
    unfold calls_for. rewrite List.filter_app, length_app. simpl.
    rewrite andb_true_r. destruct (Nat.eqb i id); reflexivity.
  - destruct (resume i (awaiting s)) as [[req others]|]; simpl; lia.
Qed.

Lemma run_calls_for (id : nat) (events : list event) :
  forall s,
    calls_for id (remote_calls (run s events)) =
    calls_for id (remote_calls s) + intent_requests id events.
Proof.
  induction events as [|e rest IH]; intros s; simpl.
  - unfold intent_requests. simpl. lia.
  - rewrite IH, step_calls_for. unfold intent_requests. simpl.
    destruct (is_intent_request id e); simpl; lia.
Qed.

(** Reading a property that a value other than [undefined] and [null] does
    not have yields [undefined]. *)
Lemma get_missing (v : value) (name : string) :
  v <> JUndefined -> v <> JNull -> has_property v name = false ->
  get v name = Normal JUndefined.
Proof.
  intros Hu Hn Hp. destruct v; try reflexivity; try contradiction.
  simpl in *. apply bool_decide_eq_false in Hp.
  destruct (own_prop props name) as [x|]; [|reflexivity].
  exfalso. apply Hp. eauto.
Qed.

(** ** The intent route: responses *)

(** C1.  When the provider call of a request on [POST /create-payment-intent]
    is fulfilled with an intent whose client secret is the string [secret],
    the request is answered with status 200 and a body that has exactly one
    field, [clientSecret], holding [secret]. *)
Theorem intent_success_response
    (s : server) (id : nat) (req : request) (paymentIntent : value) (secret : string) :
  router req = POST_create_payment_intent ->
  get paymentIntent "client_secret" = Normal (JStr secret) ->
  responses (serve s id req (Normal paymentIntent)) =
  responses s ++ [(id, Response 200 (Some (JsObj [("clientSecret", JsStr secret)])))].
Proof.
  intros Hroute Hget.
  destruct (serve_intent s id req (Normal paymentIntent) Hroute) as (r & others & ->).
  rewrite (intent_fulfilled r (enter s) eq_refl eq_refl
             paymentIntent (JStr secret) (Some (JsStr secret)) Hget eq_refl).
  reflexivity.
Qed.

(** The stub provider of the first end-to-end scenario: an empty body, and the
    secret [sk_abc_secret]. *)
Lemma intent_success_response_witness :
  responses (serve (start ∅) 0 (Request "POST" "/create-payment-intent" unconditional (JObj []))
                   (Normal (JObj [("id", JStr "pi_1");
                                  ("client_secret", JStr "sk_abc_secret")]))) =
  [(0, Response 200 (Some (JsObj [("clientSecret", JsStr "sk_abc_secret")])))].
Proof.
  apply (intent_success_response (start ∅) 0
           (Request "POST" "/create-payment-intent" unconditional (JObj []))
           (JObj [("id", JStr "pi_1"); ("client_secret", JStr "sk_abc_secret")])
           "sk_abc_secret"); reflexivity.
Defined.

(** C2.  When the provider call of a request on [POST /create-payment-intent]
    fails with an error whose message is the string [M], the request is
    answered with status 500 and the body [{ "error": M }], and the error is
    written to the error stream. *)
Theorem intent_failure_response
    (s : server) (id : nat) (req : request) (error : value) (M : string) :
  router req = POST_create_payment_intent ->
  get error "message" = Normal (JStr M) ->
  responses (serve s id req (Throw error)) =
    responses s ++ [(id, Response 500 (Some (JsObj [("error", JsStr M)])))]
  /\ stderr (serve s id req (Throw error)) = stderr s ++ [error].
Proof.
  intros Hroute Hget.
  destruct (serve_intent s id req (Throw error) Hroute) as (r & others & ->).
  rewrite (intent_rejected r (enter s) eq_refl). unfold recovered.
  rewrite Hget. split; reflexivity.
Qed.

(** The stub provider of the second end-to-end scenario, which throws
    [Error("card declined")]. *)
Lemma intent_failure_response_witness :
  responses (serve (start ∅) 0 (Request "POST" "/create-payment-intent" unconditional (JObj []))
                   (Throw (JObj [("message", JStr "card declined")]))) =
    [(0, Response 500 (Some (JsObj [("error", JsStr "card declined")])))]
  /\ stderr (serve (start ∅) 0 (Request "POST" "/create-payment-intent" unconditional (JObj []))
                   (Throw (JObj [("message", JStr "card declined")]))) =
     [JObj [("message", JStr "card declined")]].
Proof.
  apply (intent_failure_response (start ∅) 0
           (Request "POST" "/create-payment-intent" unconditional (JObj []))
           (JObj [("message", JStr "card declined")]) "card declined"); reflexivity.
Defined.

(** C3.  Whatever the body of a request on [POST /create-payment-intent],
    the provider is called with the one argument
    [{ amount: 1000, currency: 'usd', payment_method_types: ['card'] }]; and
    every call the process ever makes has exactly this argument list. *)
Theorem intent_arguments_fixed :
  (forall (s : server) (id : nat) (c : option json -> bool) (b : value),
      remote_calls (step s (Arrive id (Request "POST" "/create-payment-intent" c b))) =
      remote_calls s ++
        [(id, [JObj [("amount", JNum (Finite 1000));
                     ("currency", JStr "usd");
                     ("payment_method_types", JArr [JStr "card"])]])])
  /\ (forall (environment : gmap string string) (events : list event),
        Forall (fun c : nat * list value =>
                  c.2 = [JObj [("amount", JNum (Finite 1000));
                               ("currency", JStr "usd");
                               ("payment_method_types", JArr [JStr "card"])]])
               (remote_calls (run (start environment) events))).
Proof.
  split.
  - intros s id c b. reflexivity.
  - intros environment events.
    apply (run_invariant
             (fun s => Forall (fun c : nat * list value =>
                                 c.2 = paymentIntents_create_arguments (Request "" "" unconditional JNull))
                              (remote_calls s))).
    + intros s [id req|id outcome] H; simpl.
      * destruct (router req); simpl; try exact H.
        apply Forall_app; split; [exact H|].
        apply Forall_cons; split; [reflexivity|apply Forall_nil_2].
      * destruct (resume id (awaiting s)) as [[req others]|]; exact H.
    + apply Forall_nil_2.
Qed.

(** ** The key route *)

(** The key handler on a request whose validators do not accept the payload. *)
Lemma stripe_public_key_stale
    (environment : gmap string string) (req : request) (w : world) (payload : option json) :
  sent w = None ->
  stringify (JObj [("publicKey", process_env environment "STRIPE_PUBLISHABLE_KEY")]) =
    Normal payload ->
  validates req payload = false ->
  stripe_public_key environment req w =
  (Normal tt, World (statusCode w) (Some (Response (statusCode w) payload)) (console w)).
Proof.
  intros Hsent Hser Hstale.
  unfold stripe_public_key, res_json_conditional, fresh.
  rewrite Hser, Hsent, Hstale, andb_false_r. reflexivity.
Qed.

(** C4, as stated, fails for a conditional request: on a GET with
    [If-None-Match: *], which accepts every entity tag, [res.json] finds the
    request fresh and the answer is status 304 with an empty body, not status
    200 with the key. *)
Lemma conditional_get_answered_304 :
  router (Request "GET" "/stripe-public-key" (fun _ => true) JUndefined) =
    GET_stripe_public_key
  /\ responses (step (start {[ "STRIPE_PUBLISHABLE_KEY" := "pk_test_51" ]})
                     (Arrive 0 (Request "GET" "/stripe-public-key"
                                        (fun _ => true) JUndefined))) =
     [(0, Response 304 None)]
  /\ responses (step (start {[ "STRIPE_PUBLISHABLE_KEY" := "pk_test_51" ]})
                     (Arrive 0 (Request "GET" "/stripe-public-key"
                                        (fun _ => true) JUndefined))) <>
     [(0, Response 200 (Some (JsObj [("publicKey", JsStr "pk_test_51")])))].
Proof. repeat split. discriminate. Qed.

(** C4, amended.  In every state the process can reach, a request on
    [GET /stripe-public-key] whose validators do not accept the response
    about to be sent (so every request without conditional headers) is
    answered with status 200 and the document [{ publicKey: K }], [K] being
    the value [STRIPE_PUBLISHABLE_KEY] had in the environment at start: a
    client reading [publicKey] from the body gets the string, or [undefined]
    when the variable is unset, in which case the document on the wire is the
    empty object.  Nothing else changes: no provider call, no line on the
    error stream, no suspended handler. *)
Theorem public_key_response
    (environment : gmap string string) (events : list event) (id : nat) (req : request) :
  router req = GET_stripe_public_key ->
  (forall payload,
      stringify (JObj [("publicKey", process_env environment "STRIPE_PUBLISHABLE_KEY")]) =
        Normal payload ->
      validates req payload = false) ->
  exists doc : json,
    step (run (start environment) events) (Arrive id req) =
      Server (env (run (start environment) events))
             (stripe (run (start environment) events))
             (port (run (start environment) events))
             (awaiting (run (start environment) events))
             (remote_calls (run (start environment) events))
             (stderr (run (start environment) events))
             (responses (run (start environment) events)
                ++ [(id, Response 200 (Some doc))])
    /\ get (parse doc) "publicKey" =
       Normal (process_env environment "STRIPE_PUBLISHABLE_KEY")
    /\ (forall k, environment !! "STRIPE_PUBLISHABLE_KEY" = Some k ->
                  doc = JsObj [("publicKey", JsStr k)])
    /\ (environment !! "STRIPE_PUBLISHABLE_KEY" = None -> doc = JsObj []).
Proof.
  intros Hroute Hstale.
  pose proof (run_env environment events) as Henv.
  set (s := run (start environment) events) in *.
  exists (JsObj match environment !! "STRIPE_PUBLISHABLE_KEY" with
                | Some k => [("publicKey", JsStr k)]
                | None => []
                end).
  split; [|split; [|split]].
  - assert (Hser : stringify (JObj [("publicKey",
                                      process_env environment "STRIPE_PUBLISHABLE_KEY")]) =
                   Normal (Some (JsObj match environment !! "STRIPE_PUBLISHABLE_KEY" with
                                       | Some k => [("publicKey", JsStr k)]
                                       | None => []
                                       end))).
    { rewrite stringify_one_field. unfold process_env.
      destruct (environment !! "STRIPE_PUBLISHABLE_KEY"); reflexivity. }
    pose proof (stripe_public_key_stale environment req (enter s) _ eq_refl Hser
                  (Hstale _ Hser)) as E.
    rewrite <- Henv in E at 1.
    cbn [step]. rewrite Hroute, E. reflexivity.
  - unfold process_env.
    destruct (environment !! "STRIPE_PUBLISHABLE_KEY"); reflexivity.
  - intros k ->. reflexivity.
  - intros ->. reflexivity.
Qed.

Lemma public_key_response_witness :
  exists doc : json,
    step (run (start {[ "STRIPE_PUBLISHABLE_KEY" := "pk_test_51" ]})
              [Arrive 0 (Request "POST" "/create-payment-intent" unconditional JUndefined)])
         (Arrive 1 (Request "GET" "/stripe-public-key" unconditional JUndefined)) =
      Server (env (run (start {[ "STRIPE_PUBLISHABLE_KEY" := "pk_test_51" ]})
                       [Arrive 0 (Request "POST" "/create-payment-intent"
                                          unconditional JUndefined)]))
             JUndefined (JNum (Finite 3000))
             [(0, Request "POST" "/create-payment-intent" unconditional JUndefined)]
             [(0, paymentIntents_create_arguments
                    (Request "POST" "/create-payment-intent" unconditional JUndefined))]
             []
             [(1, Response 200 (Some doc))]
    /\ doc = JsObj [("publicKey", JsStr "pk_test_51")].
Proof.
  destruct (public_key_response {[ "STRIPE_PUBLISHABLE_KEY" := "pk_test_51" ]}
              [Arrive 0 (Request "POST" "/create-payment-intent" unconditional JUndefined)]
              1 (Request "GET" "/stripe-public-key" unconditional JUndefined) eq_refl
              (fun _ _ => eq_refl))
    as (doc & Hstep & _ & Hset & _).
  exists doc. split.
  - exact Hstep.
  - apply Hset. reflexivity.
Defined.

(** ** Calls to the provider *)

(** C5.  Two successive requests on [POST /create-payment-intent], alike or
    not, make two calls, each with the single argument that carries no
    idempotency key; when the provider answers the two calls with different
    secrets, the two responses carry these two different secrets. *)
Theorem intent_not_idempotent
    (s : server) (i j : nat) (r1 r2 : request) (p1 p2 : value) (S1 S2 : string) :
  router r1 = POST_create_payment_intent ->
  router r2 = POST_create_payment_intent ->
  get p1 "client_secret" = Normal (JStr S1) ->
  get p2 "client_secret" = Normal (JStr S2) ->
  S1 <> S2 ->
  remote_calls (run s [Arrive i r1; Settle i (Normal p1);
                       Arrive j r2; Settle j (Normal p2)]) =
    remote_calls s ++ [(i, paymentIntents_create_arguments r1);
                       (j, paymentIntents_create_arguments r2)]
  /\ (exists params,
        paymentIntents_create_arguments r1 = [params]
        /\ paymentIntents_create_arguments r2 = [params]
        /\ has_property params "idempotencyKey" = false
        /\ has_property params "idempotency_key" = false)
  /\ responses (run s [Arrive i r1; Settle i (Normal p1);
                       Arrive j r2; Settle j (Normal p2)]) =
       responses s ++
         [(i, Response 200 (Some (JsObj [("clientSecret", JsStr S1)])));
          (j, Response 200 (Some (JsObj [("clientSecret", JsStr S2)])))]
  /\ Response 200 (Some (JsObj [("clientSecret", JsStr S1)])) <>
     Response 200 (Some (JsObj [("clientSecret", JsStr S2)])).
Proof.
  intros Hr1 Hr2 Hp1 Hp2 Hne.
  change (run s [Arrive i r1; Settle i (Normal p1); Arrive j r2; Settle j (Normal p2)])
    with (serve (serve s i r1 (Normal p1)) j r2 (Normal p2)).
  destruct (serve_intent_fulfilled s i r1 p1 S1 Hr1 Hp1) as (o1 & ->).
  destruct (serve_intent_fulfilled
              (Server (env s) (stripe s) (port s) o1
                      (remote_calls s ++ [(i, paymentIntents_create_arguments r1)])
                      (stderr s)
                      (responses s ++
                         [(i, Response 200 (Some (JsObj [("clientSecret", JsStr S1)])))]))
              j r2 p2 S2 Hr2 Hp2) as (o2 & ->).
  cbn [remote_calls responses].
  rewrite <- !app_assoc.
  split; [reflexivity|]. split; [|split; [reflexivity|]].
  - eexists. repeat split; reflexivity.
  - intros H. injection H as H. exact (Hne H).
Qed.

Lemma intent_not_idempotent_witness :
  responses (run (start ∅)
               [Arrive 0 (Request "POST" "/create-payment-intent" unconditional (JObj []));
                Settle 0 (Normal (JObj [("client_secret", JStr "pi_1_secret_a")]));
                Arrive 1 (Request "POST" "/create-payment-intent" unconditional (JObj []));
                Settle 1 (Normal (JObj [("client_secret", JStr "pi_2_secret_b")]))]) =
  [(0, Response 200 (Some (JsObj [("clientSecret", JsStr "pi_1_secret_a")])));
   (1, Response 200 (Some (JsObj [("clientSecret", JsStr "pi_2_secret_b")])))].
Proof.
  refine (proj1 (proj2 (proj2
    (intent_not_idempotent (start ∅) 0 1
       (Request "POST" "/create-payment-intent" unconditional (JObj []))
       (Request "POST" "/create-payment-intent" unconditional (JObj []))
       (JObj [("client_secret", JStr "pi_1_secret_a")])
       (JObj [("client_secret", JStr "pi_2_secret_b")])
       "pi_1_secret_a" "pi_2_secret_b" eq_refl eq_refl eq_refl eq_refl _)))).
  discriminate.
Defined.

(** C6.  A request on [POST /create-payment-intent] makes one provider call
    when it arrives; the settling of a call, fulfilled or failed, makes no
    further call; so along every trace the calls made for a request are as
    many as the times it arrived on the intent route. *)
Theorem one_call_per_intent_request :
  (forall (s : server) (id : nat) (req : request),
      router req = POST_create_payment_intent ->
      remote_calls (step s (Arrive id req)) =
      remote_calls s ++ [(id, paymentIntents_create_arguments req)])
  /\ (forall (s : server) (id : nat) (outcome : completion value),
        remote_calls (step s (Settle id outcome)) = remote_calls s)
  /\ (forall (environment : gmap string string) (events : list event) (id : nat),
        calls_for id (remote_calls (run (start environment) events)) =
        intent_requests id events).
Proof.
  split; [|split].
  - intros s id req Hroute. simpl. rewrite Hroute. reflexivity.
  - intros s id outcome. simpl.
    destruct (resume id (awaiting s)) as [[req others]|]; reflexivity.
  - intros environment events id. rewrite run_calls_for. reflexivity.
Qed.

Lemma one_call_per_intent_request_witness :
  remote_calls (step (start ∅)
                  (Arrive 4 (Request "POST" "/create-payment-intent" unconditional (JStr "x")))) =
  [(4, paymentIntents_create_arguments (Request "POST" "/create-payment-intent" unconditional (JStr "x")))]
  /\ remote_calls
       (step (step (start ∅)
                (Arrive 4 (Request "POST" "/create-payment-intent" unconditional (JStr "x"))))
             (Settle 4 (Throw (JObj [("message", JStr "rate limited")])))) =
     remote_calls
       (step (start ∅) (Arrive 4 (Request "POST" "/create-payment-intent" unconditional (JStr "x")))).
Proof.
  destruct one_call_per_intent_request as (Harrive & Hsettle & _).
  split.
  - apply (Harrive (start ∅) 4 (Request "POST" "/create-payment-intent" unconditional (JStr "x"))).
    reflexivity.
  - apply Hsettle.
Defined.

(** ** Configuration *)

(** C7.  No turn of the event loop changes the configuration, so in every
    state the process reaches, after any interleaving of requests and
    settling calls, the environment, the provider key and the port are those
    read at start; and nothing is kept from one request to the next: a
    request is answered, and a settling call is answered, exactly as the
    process would have answered it right after start. *)
Theorem configuration_read_once
    (environment : gmap string string) (events : list event) :
  (forall (s : server) (e : event), configuration (step s e) = configuration s)
  /\ configuration (run (start environment) events) =
     (environment,
      process_env environment "STRIPE_SECRET_KEY",
      or (process_env environment "PORT") (JNum (Finite 3000)))
  /\ (forall (id : nat) (req : request),
        reply (run (start environment) events) (Arrive id req) =
        reply (start environment) (Arrive id req))
  /\ (forall (id : nat) (req : request) (others : list (nat * request))
             (outcome : completion value),
        resume id (awaiting (run (start environment) events)) = Some (req, others) ->
        reply (run (start environment) events) (Settle id outcome) =
        responses (serve (start environment) id req outcome)).
Proof.
  split; [exact step_configuration|].
  split; [apply run_configuration|].
  pose proof (run_env environment events) as Henv.
  pose proof (awaiting_intent_route environment events) as Hroutes.
  set (s := run (start environment) events) in *.
  split.
  - intros id req. unfold reply. simpl.
    destruct (router req); simpl; rewrite ?drop_all; try reflexivity.
    unfold stripe_public_key, res_json_conditional, leave, enter. rewrite Henv.
    handler_cases; cbn [sent statusCode]; try destruct (fresh req _ _); simpl;
      rewrite ?drop_app_length, ?drop_all; reflexivity.
  - intros id req others outcome Hres.
    destruct (resume_Forall _ id _ _ _ Hres Hroutes) as [Hroute _].
    simpl in Hroute.
    destruct (serve_intent (start environment) id req outcome Hroute)
      as (r & others' & ->).
    unfold reply. simpl. rewrite Hres. unfold leave, enter. simpl.
    rewrite drop_app_length.
    rewrite (intent_answer_independent req r outcome (stderr s) []).
    reflexivity.
Qed.

Lemma configuration_read_once_witness :
  configuration (run (start {[ "PORT" := "8080" ]})
                   [Arrive 7 (Request "POST" "/create-payment-intent" unconditional JNull)]) =
    ({[ "PORT" := "8080" ]}, JUndefined, JStr "8080")
  /\ reply (run (start {[ "PORT" := "8080" ]})
              [Arrive 7 (Request "POST" "/create-payment-intent" unconditional JNull)])
           (Settle 7 (Normal (JObj [("client_secret", JStr "s")]))) =
     responses (serve (start {[ "PORT" := "8080" ]}) 7
                  (Request "POST" "/create-payment-intent" unconditional JNull)
                  (Normal (JObj [("client_secret", JStr "s")]))).
Proof.
  destruct (configuration_read_once {[ "PORT" := "8080" ]}
              [Arrive 7 (Request "POST" "/create-payment-intent" unconditional JNull)])
    as (_ & Hconf & _ & Hsettle).
  split.
  - exact Hconf.
  - apply (Hsettle 7 (Request "POST" "/create-payment-intent" unconditional JNull) []).
    reflexivity.
Defined.

(** C8.  The value handed to [app.listen] is the value of [PORT] when the
    environment provides one, and 3000 when [PORT] is not set; a [PORT] that
    is set to the empty string counts as not set. *)
Theorem listening_port (environment : gmap string string) :
  (forall p, environment !! "PORT" = Some p -> p <> "" ->
             port (start environment) = JStr p)
  /\ (environment !! "PORT" = None -> port (start environment) = JNum (Finite 3000))
  /\ (environment !! "PORT" = Some "" -> port (start environment) = JNum (Finite 3000)).
Proof.
  unfold start, process_env, or. simpl.
  split; [|split].
  - intros p -> Hp. simpl.
    destruct (String.eqb p "") eqn:E; [|reflexivity].
    apply String.eqb_eq in E. contradiction.
  - intros ->. reflexivity.
  - intros ->. reflexivity.
Qed.

Lemma listening_port_witness :
  port (start {[ "PORT" := "8080" ]}) = JStr "8080"
  /\ port (start ∅) = JNum (Finite 3000).
Proof.
  split.
  - apply (proj1 (listening_port {[ "PORT" := "8080" ]}) "8080"); [reflexivity|discriminate].
  - apply (proj1 (proj2 (listening_port ∅))). reflexivity.
Defined.

(** ** Errors without a message *)

(** C9, as stated, fails for the thrown values [undefined] and [null]: they
    have no [message] property, but reading [error.message] throws inside the
    catch block, after the error was logged and before anything is sent, so
    the handler sends no response at all. *)
Lemma thrown_undefined_gets_no_response :
  has_property JUndefined "message" = false
  /\ responses (serve (start ∅) 0 (Request "POST" "/create-payment-intent" unconditional (JObj []))
                      (Throw JUndefined)) = []
  /\ responses (serve (start ∅) 0 (Request "POST" "/create-payment-intent" unconditional (JObj []))
                      (Throw JUndefined)) <>
     [(0, Response 500 (Some (JsObj [])))].
Proof. repeat split. discriminate. Qed.

(** C9, amended.  When the provider call fails by throwing a value other than
    [undefined] and [null] that has no [message] property, the request is
    answered with status 500 and the empty JSON object: the body has no
    [error] field. *)
Theorem intent_failure_without_message
    (s : server) (id : nat) (req : request) (error : value) :
  router req = POST_create_payment_intent ->
  error <> JUndefined ->
  error <> JNull ->
  has_property error "message" = false ->
  responses (serve s id req (Throw error)) =
  responses s ++ [(id, Response 500 (Some (JsObj [])))].
Proof.
  intros Hroute Hu Hn Hp.
  destruct (serve_intent s id req (Throw error) Hroute) as (r & others & ->).
  rewrite (intent_rejected r (enter s) eq_refl). unfold recovered.
  rewrite (get_missing error "message" Hu Hn Hp). reflexivity.
Qed.

Lemma intent_failure_without_message_witness :
  responses (serve (start ∅) 0 (Request "POST" "/create-payment-intent" unconditional (JObj []))
                   (Throw (JStr "boom"))) =
  [(0, Response 500 (Some (JsObj [])))].
Proof.
  apply (intent_failure_without_message (start ∅) 0
           (Request "POST" "/create-payment-intent" unconditional (JObj [])) (JStr "boom"));
    [reflexivity|discriminate|discriminate|reflexivity].
Defined.

(** ** Status codes *)

(** C10.  Whatever the provider call settles with, fulfilled with any value
    or failed with any thrown value, every response the intent handler sends
    in that turn has status 200 or status 500. *)
Theorem intent_status_200_or_500
    (s : server) (id : nat) (outcome : completion value) :
  Forall (fun a : nat * response => status a.2 = 200%Z \/ status a.2 = 500%Z)
         (reply s (Settle id outcome)).
Proof.
  unfold reply. simpl.
  destruct (resume id (awaiting s)) as [[req others]|]; simpl.
  - rewrite drop_app_length.
    destruct (intent_settled req (enter s) eq_refl eq_refl outcome)
      as [(d & ->)|(error & ->)]; simpl.
    + apply Forall_cons; split; [left; reflexivity|apply Forall_nil_2].
    + unfold recovered. handler_cases; try apply Forall_nil_2;
        (apply Forall_cons; split; [right; reflexivity|apply Forall_nil_2]).
  - rewrite drop_all. apply Forall_nil_2.
Qed.


(** * Further properties *)

(** ** Induction on values and documents *)

Lemma value_nested_ind (P : value -> Prop) :
  P JUndefined -> P JNull -> (forall b, P (JBool b)) -> (forall n, P (JNum n)) ->
  (forall z, P (JBigInt z)) -> (forall s, P (JStr s)) ->
  (forall items, Forall P items -> P (JArr items)) ->
  (forall props, Forall (fun kv : string * value => P kv.2) props -> P (JObj props)) ->
  forall v, P v.
Proof.
  intros Hu Hn Hb Hnum Hbig Hs Harr Hobj.
  fix IH 1. intros [ | | b | n | z | s | items | props].
  - exact Hu.
  - exact Hn.
  - apply Hb.
  - apply Hnum.
  - apply Hbig.
  - apply Hs.
  - apply Harr. revert items. fix IHl 1. intros [|x items].
    + apply List.Forall_nil.
    + apply List.Forall_cons; [apply IH|apply IHl].
  - apply Hobj. revert props. fix IHl 1. intros [|[k x] props].
    + apply List.Forall_nil.
    + apply List.Forall_cons; [apply IH|apply IHl].
Qed.

Lemma json_nested_ind (P : json -> Prop) :
  P JsNull -> (forall b, P (JsBool b)) -> (forall z, P (JsNum z)) ->
  (forall s, P (JsStr s)) ->
  (forall items, Forall P items -> P (JsArr items)) ->
  (forall members, Forall (fun m : string * json => P m.2) members -> P (JsObj members)) ->
  forall j, P j.
Proof.
  intros Hn Hb Hnum Hs Harr Hobj.
  fix IH 1. intros [ | b | z | s | items | members].
  - exact Hn.
  - apply Hb.
  - apply Hnum.
  - apply Hs.
  - apply Harr. revert items. fix IHl 1. intros [|x items].
    + apply List.Forall_nil.
    + apply List.Forall_cons; [apply IH|apply IHl].
  - apply Hobj. revert members. fix IHl 1. intros [|[k x] members].
    + apply List.Forall_nil.
    + apply List.Forall_cons; [apply IH|apply IHl].
Qed.

Lemma stringify_JArr (items : list value) :
  stringify (JArr items) =
  match stringify_elements items with
  | Throw e => Throw e
  | Normal js => Normal (Some (JsArr js))
  end.
Proof.
  assert (E : forall l,
             (fix elements (l : list value) : completion (list json) :=
                match l with
                | [] => Normal []
                | x :: rest =>
                    match stringify x with
                    | Throw e => Throw e
                    | Normal o =>
                        match elements rest with
                        | Throw e => Throw e
                        | Normal js => Normal (default JsNull o :: js)
                        end
                    end
                end) l = stringify_elements l).
  { induction l as [|x l IHl]; [reflexivity|]. simpl. rewrite IHl. reflexivity. }
  rewrite <- E. reflexivity.
Qed.

Lemma stringify_JObj (props : list (string * value)) :
  stringify (JObj props) =
  match stringify_members props with
  | Throw e => Throw e
  | Normal js => Normal (Some (JsObj js))
  end.
Proof.
  assert (E : forall l,
             (fix members (l : list (string * value)) : completion (list (string * json)) :=
                match l with
                | [] => Normal []
                | (k, x) :: rest =>
                    match stringify x with
                    | Throw e => Throw e
                    | Normal o =>
                        match members rest with
                        | Throw e => Throw e
                        | Normal js =>
                            Normal (match o with Some j => (k, j) :: js | None => js end)
                        end
                    end
                end) l = stringify_members l).
  { induction l as [|[k x] l IHl]; [reflexivity|]. simpl. rewrite IHl. reflexivity. }
  rewrite <- E. reflexivity.
Qed.

(** Serializing a parsed document gives the document back. *)
Lemma stringify_parse (j : json) : stringify (parse j) = Normal (Some j).
Proof.
  induction j as [ | b | z | s | items IH | members IH] using json_nested_ind;
    try reflexivity.
  - simpl parse. rewrite stringify_JArr.
    assert (E : stringify_elements (map parse items) = Normal items).
    { induction IH as [|x l Hx Hl IHl]; [reflexivity|].
      simpl. rewrite Hx, IHl. reflexivity. }
    rewrite E. reflexivity.
  - simpl parse. rewrite stringify_JObj.
    assert (E : stringify_members (map (fun m : string * json => (m.1, parse m.2)) members)
                = Normal members).
    { induction IH as [|[k x] l Hx Hl IHl]; [reflexivity|].
      simpl in *. rewrite Hx, IHl. reflexivity. }
    rewrite E. reflexivity.
Qed.

(** All that [stringify] ever throws is the one TypeError about BigInt. *)
Lemma stringify_throws (v : value) (e : value) :
  stringify v = Throw e -> e = TypeError "Do not know how to serialize a BigInt".
Proof.
  revert e.
  induction v as [ | | b | n | z | s | items IH | props IH] using value_nested_ind;
    intros e; try discriminate.
  - destruct n as [z| |neg]; discriminate.
  - intros H. injection H as <-. reflexivity.
  - rewrite stringify_JArr.
    assert (E : forall e', stringify_elements items = Throw e' ->
                           e' = TypeError "Do not know how to serialize a BigInt").
    { induction IH as [|x l Hx Hl IHl]; intros e' H; simpl in H; [discriminate|].
      destruct (stringify x) as [o|ex] eqn:Ex.
      - destruct (stringify_elements l) as [js|el]; [discriminate|].
        injection H as <-. apply IHl. reflexivity.
      - injection H as <-. apply Hx. reflexivity. }
    destruct (stringify_elements items) as [js|e'] eqn:Es; [discriminate|].
    intros H. injection H as <-. apply E. reflexivity.
  - rewrite stringify_JObj.
    assert (E : forall e', stringify_members props = Throw e' ->
                           e' = TypeError "Do not know how to serialize a BigInt").
    { induction IH as [|[k x] l Hx Hl IHl]; intros e' H; simpl in H; [discriminate|].
      simpl in Hx.
      destruct (stringify x) as [o|ex] eqn:Ex.
      - destruct (stringify_members l) as [js|el]; [discriminate|].
        injection H as <-. apply IHl. reflexivity.
      - injection H as <-. apply Hx. reflexivity. }
    destruct (stringify_members props) as [js|e'] eqn:Es; [discriminate|].
    intros H. injection H as <-. apply E. reflexivity.
Qed.

(** ** The intent handler when the try block throws *)

(** A fulfilment on which the try block throws [e], at the property read or
    at the serialization, ends as a rejection with [e] does. *)
Lemma intent_fulfilled_throws (req : request) (w : world) (v e : value) :
  statusCode w = 200%Z -> sent w = None ->
  get v "client_secret" = Throw e
  \/ (exists secret, get v "client_secret" = Normal secret /\ stringify secret = Throw e) ->
  create_payment_intent req (Normal v) w = recovered w e.
Proof.
  intros Hst Hsent H.
  rewrite <- (intent_rejected req w Hsent e).
  unfold create_payment_intent, try_catch, bind, eval, res_send, res_json.
  destruct H as [Hget|(secret & Hget & Hser)]; rewrite Hget.
  - reflexivity.
  - rewrite stringify_one_field, Hser. reflexivity.
Qed.

(** The catch block always answers a TypeError: its message is a string. *)
Lemma recovered_TypeError (w : world) (m : string) :
  recovered w (TypeError m) =
  (Normal tt,
   World 500 (Some (Response 500 (Some (JsObj [("error", JsStr m)]))))
         (console w ++ [TypeError m])).
Proof. reflexivity. Qed.

(** Two outcomes that the handler cannot tell apart leave the same process. *)
Lemma serve_intent_same
    (s : server) (id : nat) (req : request) (o1 o2 : completion value) :
  router req = POST_create_payment_intent ->
  (forall r, create_payment_intent r o1 (enter s) = create_payment_intent r o2 (enter s)) ->
  serve s id req o1 = serve s id req o2.
Proof.
  intros Hroute Hsame. unfold serve. cbn [run step]. rewrite Hroute.
  cbn [step awaiting].
  destruct (resume id (awaiting s ++ [(id, req)])) as [[q o]|]; [|reflexivity].
  change (enter (Server (env s) (stripe s) (port s) (awaiting s ++ [(id, req)])
                        (remote_calls s ++ [(id, paymentIntents_create_arguments req)])
                        (stderr s) (responses s)))
    with (enter s).
  rewrite (Hsame q). reflexivity.
Qed.

(** ** Answers of the intent handler *)

(** X2.  A fulfilled call is always answered, whatever it is fulfilled with:
    with status 200, or, when reading or serializing the client secret
    throws, with status 500 and an [error] field that holds a string. *)
Theorem fulfilled_call_is_answered
    (s : server) (id : nat) (req : request) (v : value) :
  router req = POST_create_payment_intent ->
  exists r,
    responses (serve s id req (Normal v)) = responses s ++ [(id, r)]
    /\ (status r = 200%Z
        \/ (status r = 500%Z /\ exists M, body r = Some (JsObj [("error", JsStr M)]))).
Proof.
  intros Hroute.
  destruct (serve_intent s id req (Normal v) Hroute) as (r & others & ->).
  destruct (get v "client_secret") as [secret|e] eqn:Hget.
  - destruct (stringify secret) as [j|e] eqn:Hser.
    + rewrite (intent_fulfilled r (enter s) eq_refl eq_refl v secret j Hget Hser).
      eexists. split; [reflexivity|]. left. reflexivity.
    + rewrite (intent_fulfilled_throws r (enter s) v e eq_refl eq_refl)
        by (right; eauto).
      rewrite (stringify_throws _ _ Hser), recovered_TypeError.
      eexists. split; [reflexivity|]. right. split; [reflexivity|]. eauto.
  - rewrite (intent_fulfilled_throws r (enter s) v e eq_refl eq_refl) by (left; exact Hget).
    destruct v; try discriminate; injection Hget as <-; rewrite recovered_TypeError;
      eexists; (split; [reflexivity|]); right; (split; [reflexivity|]); eauto.
Qed.

Lemma fulfilled_call_is_answered_witness :
  exists r,
    responses (serve (start ∅) 3 (Request "POST" "/create-payment-intent" unconditional JUndefined)
                     (Normal (JObj [("client_secret", JBigInt 7)]))) = [] ++ [(3, r)]
    /\ (status r = 200%Z
        \/ (status r = 500%Z /\ exists M, body r = Some (JsObj [("error", JsStr M)]))).
Proof.
  apply (fulfilled_call_is_answered (start ∅) 3
           (Request "POST" "/create-payment-intent" unconditional JUndefined)
           (JObj [("client_secret", JBigInt 7)])).
  reflexivity.
Defined.

(** X3.  In the intent handler, a failed call always gets the thrown value
    written with [console.error].  The catch block itself throws, so that the
    promise of the handler is rejected, exactly when reading [error.message]
    throws or the message cannot be serialized; [undefined] and [null] are
    such errors.  When it throws, the handler has sent nothing; when it does
    not, the handler has sent status 500. *)
Theorem catch_block_throws_iff (req : request) (w : world) (error : value) :
  statusCode w = 200%Z ->
  sent w = None ->
  console (create_payment_intent req (Throw error) w).2 = console w ++ [error]
  /\ ((exists e, (create_payment_intent req (Throw error) w).1 = Throw e) <->
      (exists e, get error "message" = Throw e)
      \/ (exists m e, get error "message" = Normal m /\ stringify m = Throw e))
  /\ ((exists e, (create_payment_intent req (Throw error) w).1 = Throw e) ->
      sent (create_payment_intent req (Throw error) w).2 = None)
  /\ ((create_payment_intent req (Throw error) w).1 = Normal tt ->
      exists members,
        sent (create_payment_intent req (Throw error) w).2 =
        Some (Response 500 (Some (JsObj members))))
  /\ (error = JUndefined \/ error = JNull ->
      exists e, (create_payment_intent req (Throw error) w).1 = Throw e).
Proof.
  intros _ Hsent. rewrite (intent_rejected req w Hsent). unfold recovered.
  destruct (get error "message") as [m|e0] eqn:Hget.
  - destruct (stringify m) as [j|e1] eqn:Hser; cbn [fst snd console sent].
    + split; [reflexivity|]. split; [|split; [|split]].
      * split.
        -- intros [e He]. discriminate.
        -- intros [[e He]|(m' & e' & Hm & He)]; [discriminate|].
           injection Hm as <-. rewrite Hser in He. discriminate.
      * intros [e He]. discriminate.
      * intros _. eauto.
      * intros [-> | ->]; discriminate.
    + split; [reflexivity|]. split; [|split; [|split]].
      * split; [intros _; right; eauto|intros _; eauto].
      * reflexivity.
      * discriminate.
      * intros _. eauto.
  - cbn [fst snd console sent].
    split; [reflexivity|]. split; [|split; [|split]].
    + split; [intros _; left; eauto|intros _; eauto].
    + reflexivity.
    + discriminate.
    + intros _. eauto.
Qed.

Lemma catch_block_throws_iff_witness :
  console (create_payment_intent
             (Request "POST" "/create-payment-intent" unconditional JUndefined)
             (Throw (JObj [("message", JBigInt 1)])) (World 200 None [])).2 =
    [] ++ [JObj [("message", JBigInt 1)]]
  /\ sent (create_payment_intent
             (Request "POST" "/create-payment-intent" unconditional JUndefined)
             (Throw (JObj [("message", JBigInt 1)])) (World 200 None [])).2 = None.
Proof.
  destruct (catch_block_throws_iff
              (Request "POST" "/create-payment-intent" unconditional JUndefined)
              (World 200 None []) (JObj [("message", JBigInt 1)]) eq_refl eq_refl)
    as (Hlog & Hiff & Hnone & _).
  split; [exact Hlog|].
  apply Hnone, Hiff. right. exists (JBigInt 1). eexists. split; reflexivity.
Defined.

(** X4.  When the call is fulfilled with a value other than [undefined] and
    [null] that has no [client_secret] property, the request is still answered
    with status 200, and the body is the empty object: it has no
    [clientSecret] field.  Nothing is written to the error stream. *)
Theorem intent_without_secret
    (s : server) (id : nat) (req : request) (paymentIntent : value) :
  router req = POST_create_payment_intent ->
  paymentIntent <> JUndefined ->
  paymentIntent <> JNull ->
  has_property paymentIntent "client_secret" = false ->
  responses (serve s id req (Normal paymentIntent)) =
    responses s ++ [(id, Response 200 (Some (JsObj [])))]
  /\ stderr (serve s id req (Normal paymentIntent)) = stderr s.
Proof.
  intros Hroute Hu Hn Hp.
  destruct (serve_intent s id req (Normal paymentIntent) Hroute) as (r & others & ->).
  rewrite (intent_fulfilled r (enter s) eq_refl eq_refl paymentIntent JUndefined None
             (get_missing paymentIntent "client_secret" Hu Hn Hp) eq_refl).
  split; reflexivity.
Qed.

Lemma intent_without_secret_witness :
  responses (serve (start ∅) 0 (Request "POST" "/create-payment-intent" unconditional JUndefined)
                   (Normal (JObj [("id", JStr "pi_1")]))) =
    [] ++ [(0, Response 200 (Some (JsObj [])))]
  /\ stderr (serve (start ∅) 0 (Request "POST" "/create-payment-intent" unconditional JUndefined)
                   (Normal (JObj [("id", JStr "pi_1")]))) = [].
Proof.
  apply (intent_without_secret (start ∅) 0
           (Request "POST" "/create-payment-intent" unconditional JUndefined)
           (JObj [("id", JStr "pi_1")]));
    [reflexivity|discriminate|discriminate|reflexivity].
Defined.

(** X5.  When the call is fulfilled with [undefined] or [null], reading
    [client_secret] throws a TypeError inside the try block; the catch block
    handles it as it handles a failed call: the TypeError goes on the error
    stream and the request is answered with status 500 and the message of
    the TypeError. *)
Theorem intent_fulfilled_with_nothing
    (s : server) (id : nat) (req : request) (v : value) :
  router req = POST_create_payment_intent ->
  v = JUndefined \/ v = JNull ->
  exists M,
    responses (serve s id req (Normal v)) =
      responses s ++ [(id, Response 500 (Some (JsObj [("error", JsStr M)])))]
    /\ stderr (serve s id req (Normal v)) = stderr s ++ [TypeError M]
    /\ serve s id req (Normal v) = serve s id req (Throw (TypeError M)).
Proof.
  intros Hroute Hv.
  assert (E : forall M, get v "client_secret" = Throw (TypeError M) ->
                        serve s id req (Normal v) = serve s id req (Throw (TypeError M))).
  { intros M HM. apply serve_intent_same; [exact Hroute|]. intros q.
    rewrite (intent_fulfilled_throws q (enter s) v (TypeError M) eq_refl eq_refl)
      by (left; exact HM).
    rewrite (intent_rejected q (enter s) eq_refl). reflexivity. }
  assert (F : forall M, get v "client_secret" = Throw (TypeError M) ->
    responses (serve s id req (Normal v)) =
      responses s ++ [(id, Response 500 (Some (JsObj [("error", JsStr M)])))]
    /\ stderr (serve s id req (Normal v)) = stderr s ++ [TypeError M]
    /\ serve s id req (Normal v) = serve s id req (Throw (TypeError M))).
  { intros M HM. rewrite (E M HM).
    destruct (serve_intent s id req (Throw (TypeError M)) Hroute) as (r & others & ->).
    rewrite (intent_rejected r (enter s) eq_refl), recovered_TypeError.
    repeat split. }
  destruct Hv as [-> | ->].
  - exists "Cannot read properties of undefined (reading 'client_secret')".
    apply F. reflexivity.
  - exists "Cannot read properties of null (reading 'client_secret')".
    apply F. reflexivity.
Qed.

Lemma intent_fulfilled_with_nothing_witness :
  exists M,
    responses (serve (start ∅) 0 (Request "POST" "/create-payment-intent" unconditional JUndefined)
                     (Normal JUndefined)) =
      [] ++ [(0, Response 500 (Some (JsObj [("error", JsStr M)])))]
    /\ stderr (serve (start ∅) 0 (Request "POST" "/create-payment-intent" unconditional JUndefined)
                     (Normal JUndefined)) = [] ++ [TypeError M]
    /\ serve (start ∅) 0 (Request "POST" "/create-payment-intent" unconditional JUndefined)
             (Normal JUndefined) =
       serve (start ∅) 0 (Request "POST" "/create-payment-intent" unconditional JUndefined)
             (Throw (TypeError M)).
Proof.
  apply (intent_fulfilled_with_nothing (start ∅) 0
           (Request "POST" "/create-payment-intent" unconditional JUndefined) JUndefined).
  - reflexivity.
  - left. reflexivity.
Defined.

(** X6.  One run of the intent handler, whatever the call settles with,
    either answers with status 200 without calling [console.error], or calls
    [console.error] exactly once and then answers with status 500 or not at
    all: the handler sends no 500 without logging and logs nothing on a
    200. *)
Theorem handler_logs_unless_200 (req : request) (w : world) (outcome : completion value) :
  statusCode w = 200%Z ->
  sent w = None ->
  (console (create_payment_intent req outcome w).2 = console w
   /\ exists members,
        sent (create_payment_intent req outcome w).2 =
        Some (Response 200 (Some (JsObj members))))
  \/ (exists e,
        console (create_payment_intent req outcome w).2 = console w ++ [e]
        /\ (sent (create_payment_intent req outcome w).2 = None
            \/ exists members,
                 sent (create_payment_intent req outcome w).2 =
                 Some (Response 500 (Some (JsObj members))))).
Proof.
  intros Hst Hsent.
  destruct (intent_settled req w Hst Hsent outcome) as [(d & ->)|(error & ->)].
  - left. split; [reflexivity|]. eauto.
  - right. exists error. unfold recovered.
    destruct (get error "message") as [m|e0]; [destruct (stringify m) as [j|e1]|];
      cbn [snd console sent]; (split; [reflexivity|]); eauto.
Qed.

Lemma handler_logs_unless_200_witness :
  (console (create_payment_intent
              (Request "POST" "/create-payment-intent" unconditional JUndefined)
              (Throw (JStr "boom")) (World 200 None [])).2 = []
   /\ exists members,
        sent (create_payment_intent
                (Request "POST" "/create-payment-intent" unconditional JUndefined)
                (Throw (JStr "boom")) (World 200 None [])).2 =
        Some (Response 200 (Some (JsObj members))))
  \/ (exists e,
        console (create_payment_intent
                   (Request "POST" "/create-payment-intent" unconditional JUndefined)
                   (Throw (JStr "boom")) (World 200 None [])).2 = [] ++ [e]
        /\ (sent (create_payment_intent
                    (Request "POST" "/create-payment-intent" unconditional JUndefined)
                    (Throw (JStr "boom")) (World 200 None [])).2 = None
            \/ exists members,
                 sent (create_payment_intent
                         (Request "POST" "/create-payment-intent" unconditional JUndefined)
                         (Throw (JStr "boom")) (World 200 None [])).2 =
                 Some (Response 500 (Some (JsObj members))))).
Proof.
  apply (handler_logs_unless_200
           (Request "POST" "/create-payment-intent" unconditional JUndefined)
           (World 200 None []) (Throw (JStr "boom"))); reflexivity.
Defined.

(** ** What the client reads back *)

Lemma intent_secret_round_trip_aux
    (s : server) (id : nat) (req : request) (paymentIntent : value) (secret : json) :
  router req = POST_create_payment_intent ->
  get paymentIntent "client_secret" = Normal (parse secret) ->
  responses (serve s id req (Normal paymentIntent)) =
    responses s ++ [(id, Response 200 (Some (JsObj [("clientSecret", secret)])))]
  /\ stderr (serve s id req (Normal paymentIntent)) = stderr s.
Proof.
  intros Hroute Hget.
  destruct (serve_intent s id req (Normal paymentIntent) Hroute) as (r & others & ->).
  rewrite (intent_fulfilled r (enter s) eq_refl eq_refl
             paymentIntent (parse secret) (Some secret) Hget (stringify_parse secret)).
  split; reflexivity.
Qed.

(** X7.  When the client secret of the intent is JSON data other than a
    string as well (null, a boolean, an integer that JavaScript holds
    exactly, or arrays and objects with distinct keys of such data), the
    request is answered with status 200 and the body
    [{ clientSecret: secret }] with exactly that data, and nothing is written
    to the error stream. *)
Theorem intent_secret_round_trip
    (s : server) (id : nat) (req : request) (paymentIntent : value) (secret : json) :
  router req = POST_create_payment_intent ->
  plain_data secret = true ->
  get paymentIntent "client_secret" = Normal (parse secret) ->
  responses (serve s id req (Normal paymentIntent)) =
    responses s ++ [(id, Response 200 (Some (JsObj [("clientSecret", secret)])))]
  /\ stderr (serve s id req (Normal paymentIntent)) = stderr s.
Proof.
  intros Hroute _ Hget.
  exact (intent_secret_round_trip_aux s id req paymentIntent secret Hroute Hget).
Qed.

Lemma intent_secret_round_trip_witness :
  responses (serve (start ∅) 0
                   (Request "POST" "/create-payment-intent" unconditional JUndefined)
                   (Normal (JObj [("client_secret", JNull)]))) =
    [] ++ [(0, Response 200 (Some (JsObj [("clientSecret", JsNull)])))]
  /\ stderr (serve (start ∅) 0
                   (Request "POST" "/create-payment-intent" unconditional JUndefined)
                   (Normal (JObj [("client_secret", JNull)]))) = [].
Proof.
  apply (intent_secret_round_trip (start ∅) 0
           (Request "POST" "/create-payment-intent" unconditional JUndefined)
           (JObj [("client_secret", JNull)]) JsNull); reflexivity.
Defined.

(** X8.  When the [message] of the thrown value is JSON data other than a
    string as well (null, a boolean, an integer that JavaScript holds
    exactly, or arrays and objects with distinct keys of such data), the
    thrown value is written to the error stream and the request is answered
    with status 500 and the body [{ error: message }] with exactly that
    data. *)
Theorem intent_message_round_trip
    (s : server) (id : nat) (req : request) (error : value) (message : json) :
  router req = POST_create_payment_intent ->
  plain_data message = true ->
  get error "message" = Normal (parse message) ->
  responses (serve s id req (Throw error)) =
    responses s ++ [(id, Response 500 (Some (JsObj [("error", message)])))]
  /\ stderr (serve s id req (Throw error)) = stderr s ++ [error].
Proof.
  intros Hroute _ Hget.
  destruct (serve_intent s id req (Throw error) Hroute) as (r & others & ->).
  rewrite (intent_rejected r (enter s) eq_refl). unfold recovered.
  rewrite Hget, stringify_parse. split; reflexivity.
Qed.

Lemma intent_message_round_trip_witness :
  responses (serve (start ∅) 0
                   (Request "POST" "/create-payment-intent" unconditional JUndefined)
                   (Throw (JObj [("message",
                                  JObj [("code", JStr "card_declined");
                                        ("attempts", JNum (Finite 2))])]))) =
    [] ++ [(0, Response 500
                 (Some (JsObj [("error",
                                JsObj [("code", JsStr "card_declined");
                                       ("attempts", JsNum 2)])])))]
  /\ stderr (serve (start ∅) 0
                   (Request "POST" "/create-payment-intent" unconditional JUndefined)
                   (Throw (JObj [("message",
                                  JObj [("code", JStr "card_declined");
                                        ("attempts", JNum (Finite 2))])]))) =
     [] ++ [JObj [("message", JObj [("code", JStr "card_declined");
                                    ("attempts", JNum (Finite 2))])]].
Proof.
  apply (intent_message_round_trip (start ∅) 0
           (Request "POST" "/create-payment-intent" unconditional JUndefined)
           (JObj [("message", JObj [("code", JStr "card_declined");
                                    ("attempts", JNum (Finite 2))])])
           (JsObj [("code", JsStr "card_declined"); ("attempts", JsNum 2)]));
    reflexivity.
Defined.

(** ** The line written at start *)

(** X9.  The line written once the server listens names the port handed to
    [app.listen]: the value of [PORT] when it is set and not empty, and 3000
    otherwise. *)
Theorem listening_line_names_port (environment : gmap string string) :
  listening_line (start environment) =
  Some ("Server running on port " ++
        match environment !! "PORT" with
        | Some p => if String.eqb p "" then "3000" else p
        | None => "3000"
        end)%string
  /\ to_string (port (start environment)) =
     Some (match environment !! "PORT" with
           | Some p => if String.eqb p "" then "3000" else p
           | None => "3000"
           end).
Proof.
  unfold listening_line, start, process_env, or. cbn [port].
  destruct (environment !! "PORT") as [p|]; [|split; reflexivity].
  cbn [truthy]. destruct (String.eqb p ""); split; reflexivity.
Qed.

(** ** The page and the process together *)

Lemma answer_to_sent (id : nat) (s s' : server) (r : response) :
  responses s' = responses s ++ [(id, r)] -> answer_to id s s' = Answered r.
Proof.
  intros H. unfold answer_to. rewrite H, drop_app_length. simpl.
  rewrite Nat.eqb_refl. reflexivity.
Qed.

(** Once the body is an object, the page calls [confirmCardPayment] exactly
    once, with what it reads under [clientSecret]. *)
Lemma payButton_click_confirms
    (code : Z) (members : list (string * json))
    (confirmCardPayment : list value -> completion value) :
  confirmations
    (payButton_click (Answered (Response code (Some (JsObj members)))) confirmCardPayment).1 =
  [[default JUndefined
      (own_prop (map (fun m : string * json => (m.1, parse m.2)) members) "clientSecret");
    payment_method]].
Proof.
  unfold payButton_click, response_json. cbn [body parse get].
  destruct (confirmCardPayment _) as [result|e]; [|reflexivity].
  destruct (get result "error") as [error|e]; [|reflexivity].
  destruct (truthy error); [|reflexivity].
  destruct (get error "message") as [message|e]; reflexivity.
Qed.

(** X10.  End to end, on success: the page passes to
    [stripe.confirmCardPayment] exactly the client secret the provider
    issued, together with the card details, in one call. *)
Theorem page_confirms_with_issued_secret
    (s : server) (id : nat) (no_body paymentIntent : value) (secret : json)
    (confirmCardPayment : list value -> completion value) :
  get paymentIntent "client_secret" = Normal (parse secret) ->
  confirmations (checkout s id no_body (Normal paymentIntent) confirmCardPayment).1 =
  [[parse secret; payment_method]].
Proof.
  intros Hget. unfold checkout.
  destruct (intent_secret_round_trip_aux s id (fetch_request no_body) paymentIntent secret
              eq_refl Hget) as [Hresp _].
  rewrite (answer_to_sent id s _ _ Hresp), payButton_click_confirms.
  simpl. reflexivity.
Qed.

Lemma page_confirms_with_issued_secret_witness :
  confirmations
    (checkout (start ∅) 0 (JObj [])
              (Normal (JObj [("client_secret", JStr "pi_1_secret_a")]))
              (fun _ => Normal (JObj [("paymentIntent", JObj [])]))).1 =
  [[parse (JsStr "pi_1_secret_a"); payment_method]].
Proof.
  apply (page_confirms_with_issued_secret (start ∅) 0 (JObj [])
           (JObj [("client_secret", JStr "pi_1_secret_a")]) (JsStr "pi_1_secret_a")).
  reflexivity.
Defined.

(** X11.  End to end, on failure: the page does not look at the status.
    Whenever the answer it fetched has status 500, whatever the provider call
    came to, the page still calls [stripe.confirmCardPayment], once, with
    [undefined] as the client secret. *)
Theorem page_confirms_without_secret_on_500
    (s : server) (id : nat) (no_body : value) (outcome : completion value)
    (confirmCardPayment : list value -> completion value) (r : response) :
  answer_to id s (serve s id (fetch_request no_body) outcome) = Answered r ->
  status r = 500%Z ->
  confirmations (checkout s id no_body outcome confirmCardPayment).1 =
  [[JUndefined; payment_method]].
Proof.
  unfold checkout.
  destruct (serve_intent s id (fetch_request no_body) outcome eq_refl)
    as (q & others & ->).
  unfold answer_to, leave. cbn [responses]. rewrite drop_app_length.
  destruct (intent_settled q (enter s) eq_refl eq_refl outcome)
    as [(d & ->)|(error & ->)].
  - cbn [snd sent List.find fst]. rewrite Nat.eqb_refl. intros [= <-] Hst. discriminate.
  - unfold recovered.
    destruct (get error "message") as [m|e0]; [destruct (stringify m) as [[j|]|e1]|];
      cbn [snd sent List.find fst]; rewrite ?Nat.eqb_refl; cbv beta iota;
      cbn [snd fst]; intros Hans Hst; try discriminate;
      rewrite payButton_click_confirms; reflexivity.
Qed.

Lemma page_confirms_without_secret_on_500_witness :
  confirmations
    (checkout (start ∅) 0 (JObj [])
              (Throw (JObj [("message", JStr "card declined")]))
              (fun _ => Normal (JObj [("error", JObj [("message", JStr "missing secret")])]))).1 =
  [[JUndefined; payment_method]].
Proof.
  apply (page_confirms_without_secret_on_500 (start ∅) 0 (JObj [])
           (Throw (JObj [("message", JStr "card declined")]))
           (fun _ => Normal (JObj [("error", JObj [("message", JStr "missing secret")])]))
           (Response 500 (Some (JsObj [("error", JsStr "card declined")]))));
    reflexivity.
Defined.
